(** * cicd-devpath: the FastAPI demo service of [github-actions-fastapi/app/main.py]

    [main.py] builds one application object and registers two path
    operations on it:

<<
    app = FastAPI(title=..., description=..., version=...)

    @app.get("/")
    def read_root(): return {"message": ..., "status": "running"}

    @app.get("/health")
    def health_check(): return {"status": "healthy"}
>>

    The file is organised as the program is:
    - [Python]: the values the handlers build, exceptions, and the
      state-and-exception monad in which a handler body runs;
    - [Framework]: the part of FastAPI (on Starlette) that [main.py]
      calls: the constructor with its defaults, the [get] decorator, route
      matching, the router loop, the exception handlers and the JSON
      encoding of a handler's result;
    - [main]: the module itself, statement by statement;
    - the properties of the service. *)

From Stdlib Require Import String Ascii List Bool ZArith Lia Permutation.
Import ListNotations.

Set Warnings "-register-all".

Local Open Scope string_scope.
Local Open Scope Z_scope.

(* ====================================================================== *)
(** ** Python values, exceptions and the handler monad *)
(* ====================================================================== *)

Module Python.

(** The values a handler can hand back to the framework.  [PyDict] is a
    [dict] with [str] keys, in insertion order, as a dict display builds
    it; [PyObject cls] is an instance of a class that is neither a mapping
    nor has a [__dict__] (the result of [object()], say). *)
Inductive value : Type :=
| PyNone
| PyBool (b : bool)
| PyInt (z : Z)
| PyStr (s : string)
| PyList (elems : list value)
| PyDict (items : list (string * value))
| PyObject (cls : string).

(** Exceptions: [HTTPException] carries a status code and a detail; every
    other exception is known by its class name. *)
Inductive exn : Type :=
| HTTPException (status_code : Z) (detail : string)
| Exception (cls : string).

(** How a call ends: it returns a value or raises. *)
Inductive result (A : Type) : Type :=
| Return (a : A)
| Raise (e : exn).
Arguments Return {A} a.
Arguments Raise {A} e.

(** A computation over a mutable store [St].  What was written before an
    exception is raised stays written, as in Python. *)
Definition M (St A : Type) : Type := St -> St * result A.

Definition ret {St A : Type} (a : A) : M St A := fun s => (s, Return a).

Definition raise {St A : Type} (e : exn) : M St A := fun s => (s, Raise e).

Definition bind {St A B : Type} (c : M St A) (k : A -> M St B) : M St B :=
  fun s =>
    match c s with
    | (s', Return a) => k a s'
    | (s', Raise e) => (s', Raise e)
    end.

Definition get_state {St : Type} : M St St := fun s => (s, Return s).

Definition put_state {St : Type} (s' : St) : M St unit := fun _ => (s', Return tt).

(** [try: c  except Exception as e: h e] *)
Definition try_except {St A : Type} (c : M St A) (h : exn -> M St A) : M St A :=
  fun s =>
    match c s with
    | (s', Return a) => (s', Return a)
    | (s', Raise e) => h e s'
    end.

(** A pure, fallible step inside a computation. *)
Definition lift {St A : Type} (r : result A) : M St A := fun s => (s, r).

End Python.

Export Python.

Declare Scope py_scope.
Delimit Scope py_scope with py.
Notation "x <- c ;; k" := (bind c (fun x => k))
  (at level 61, c at next level, right associativity) : py_scope.
Local Open Scope py_scope.

(* ====================================================================== *)
(** ** JSON *)
(* ====================================================================== *)

Module Json.

Inductive json : Type :=
| JNull
| JBool (b : bool)
| JNum (z : Z)
| JStr (s : string)
| JArr (elems : list json)
| JObj (members : list (string * json)).

(** [fastapi.encoders.jsonable_encoder] on the values above.  Scalars map
    to themselves, lists and dicts are encoded member by member, and an
    object with no mapping and no [__dict__] view is refused with
    [ValueError]. *)
Fixpoint jsonable_encoder (v : value) : result json :=
  match v with
  | PyNone => Return JNull
  | PyBool b => Return (JBool b)
  | PyInt z => Return (JNum z)
  | PyStr s => Return (JStr s)
  | PyList elems =>
      match
        (fix encode_all (l : list value) : result (list json) :=
           match l with
           | [] => Return []
           | x :: rest =>
               match jsonable_encoder x with
               | Raise e => Raise e
               | Return j =>
                   match encode_all rest with
                   | Raise e => Raise e
                   | Return js => Return (j :: js)
                   end
               end
           end) elems
      with
      | Raise e => Raise e
      | Return js => Return (JArr js)
      end
  | PyDict items =>
      match
        (fix encode_items (l : list (string * value)) : result (list (string * json)) :=
           match l with
           | [] => Return []
           | (k, x) :: rest =>
               match jsonable_encoder x with
               | Raise e => Raise e
               | Return j =>
                   match encode_items rest with
                   | Raise e => Raise e
                   | Return js => Return ((k, j) :: js)
                   end
               end
           end) items
      with
      | Raise e => Raise e
      | Return js => Return (JObj js)
      end
  | PyObject _ => Raise (Exception "ValueError")
  end.

(** A dict all of whose values are [str]. *)
Definition is_str (v : value) : bool :=
  match v with PyStr _ => true | _ => false end.

Definition str_dict (v : value) : bool :=
  match v with
  | PyDict items => forallb (fun kv => is_str (snd kv)) items
  | _ => false
  end.

End Json.

Export Json.

(* ====================================================================== *)
(** ** The framework: FastAPI on Starlette *)
(* ====================================================================== *)

(** [main.py] defines no routing, encoding or error handling of its own:
    all of it is the framework's.  This module records the framework
    behaviour that the three statements of [main.py] put to work, under
    the names the framework uses.  Response headers are not modelled
    (the target of a redirect is kept in the response content). *)
Module Framework.

(** The generated schema document, reduced to what it is built from: the
    three metadata strings and, per documented route, its path and
    methods. *)
Record OpenAPI : Type := mkOpenAPI {
  info_title : string;
  info_description : string;
  info_version : string;
  schema_paths : list (string * list string)
}.

(** The attributes of the application object that the answer to a request
    is computed from.  [openapi_schema] is the cache that
    [FastAPI.openapi()] fills on first use.  The framework's own
    bookkeeping on the object (the middleware stack that the first call
    builds, the [servers] list) is not part of this record: no answer of
    this application reads it. *)
Record AppState : Type := mkAppState {
  title : string;
  description : string;
  version : string;
  openapi_url : option string;
  docs_url : option string;
  redoc_url : option string;
  swagger_ui_oauth2_redirect_url : option string;
  openapi_schema : option OpenAPI
}.

(** A path operation function without parameters: it runs against the
    application's attributes and returns a value or raises. *)
Definition Handler : Type := M AppState value.

(** What a route calls: a path operation function registered by the
    program, or one of the four closures that [FastAPI.setup] creates. *)
Inductive Endpoint : Type :=
| PathOperation (name : string) (func : Handler)
| OpenAPIEndpoint
| SwaggerUIHtml
| SwaggerUIRedirect
| RedocHtml.

Record Route : Type := mkRoute {
  path : string;
  methods : list string;
  endpoint : Endpoint;
  status_code : option Z;
  include_in_schema : bool
}.

Record FastAPI : Type := mkFastAPI {
  state : AppState;
  routes : list Route;
  redirect_slashes : bool
}.

(** The ASGI scope of an HTTP request, with its body. *)
Record Request : Type := mkRequest {
  method : string;
  url_path : string;
  query_string : string;
  headers : list (string * string);
  body : string
}.

Inductive Page : Type :=
| SwaggerUI (schema_url page_title : string) (oauth2_redirect_url : option string)
| OAuth2Redirect
| ReDoc (schema_url page_title : string).

(** A URL as [starlette.datastructures.URL] builds it from a scope, kept
    as the parts it is built from: the value of the [host] header if the
    request has one, the path, and the decoded query string if there is
    one.  The scheme and the server address of a scope are not part of
    [Request]. *)
Record URL : Type := mkURL {
  location_host : option string;
  location_path : string;
  location_query : option string
}.

(** What a response carries.  A redirect carries no body: [RedirectTo] is
    its [location] header, before percent-quoting. *)
Inductive Content : Type :=
| JSONContent (j : json)
| SchemaContent (s : OpenAPI)
| HTMLContent (p : Page)
| PlainText (s : string)
| RedirectTo (location : URL)
| NoBody.

Record Response : Type := mkResponse {
  status : Z;
  content : Content
}.

(** *** Construction and registration *)

(** Python truthiness of an optional string. *)
Definition truthy (o : option string) : bool :=
  match o with
  | Some s => negb (String.eqb s "")
  | None => false
  end.

(** [Starlette.add_route(path, func, include_in_schema=False)]: a plain
    [Route] on a function answers [GET], and [HEAD] with it. *)
Definition add_route (p : string) (e : Endpoint) (app : FastAPI) : FastAPI :=
  {| state := state app;
     routes := routes app ++ [mkRoute p ["GET"; "HEAD"] e None false];
     redirect_slashes := redirect_slashes app |}.

Definition add_optional_route (o : option string) (e : Endpoint) (app : FastAPI) : FastAPI :=
  match o with
  | Some p => add_route p e app
  | None => app
  end.

(** [FastAPI.setup]: the schema route, the two documentation pages and the
    OAuth2 redirect page, each only when its URL is set. *)
Definition setup (app : FastAPI) : FastAPI :=
  let s := state app in
  let app1 :=
    if truthy (openapi_url s)
    then add_optional_route (openapi_url s) OpenAPIEndpoint app
    else app in
  let app2 :=
    if truthy (openapi_url s) && truthy (docs_url s)
    then
      let with_docs := add_optional_route (docs_url s) SwaggerUIHtml app1 in
      if truthy (swagger_ui_oauth2_redirect_url s)
      then add_optional_route (swagger_ui_oauth2_redirect_url s) SwaggerUIRedirect with_docs
      else with_docs
    else app1 in
  if truthy (openapi_url s) && truthy (redoc_url s)
  then add_optional_route (redoc_url s) RedocHtml app2
  else app2.

(** [FastAPI(title=..., description=..., version=...)]: the keyword
    arguments given, every other parameter at its default. *)
Definition FastAPI_init (title description version : string) : FastAPI :=
  setup
    {| state :=
         {| title := title;
            description := description;
            version := version;
            openapi_url := Some "/openapi.json";
            docs_url := Some "/docs";
            redoc_url := Some "/redoc";
            swagger_ui_oauth2_redirect_url := Some "/docs/oauth2-redirect";
            openapi_schema := None |};
       routes := [];
       redirect_slashes := true |}.

(** [@app.get(path)] applied to [func]: an [APIRoute] for [GET] alone,
    appended to the routes, with no status code of its own and shown in
    the schema. *)
Definition get (p : string) (name : string) (func : Handler) (app : FastAPI) : FastAPI :=
  {| state := state app;
     routes := routes app ++ [mkRoute p ["GET"] (PathOperation name func) None true];
     redirect_slashes := redirect_slashes app |}.

(** *** Matching *)

Definition LF : string := String (ascii_of_nat 10) EmptyString.

(** A route path without parameters compiles to the pattern [^path$],
    tried with [re.match]: the whole path must be the route's, and, as
    Python's [$] allows, one final line feed may follow it. *)
Definition path_regex_match (route_path p : string) : bool :=
  String.eqb p route_path || String.eqb p (route_path ++ LF).

Inductive Match : Type := NONE | PARTIAL | FULL.

Definition allows (r : Route) (m : string) : bool :=
  match methods r with
  | [] => true
  | ms => existsb (String.eqb m) ms
  end.

(** [Route.matches] *)
Definition matches (r : Route) (req : Request) : Match :=
  if path_regex_match (path r) (url_path req)
  then if allows r (method req) then FULL else PARTIAL
  else NONE.

(** *** Running an endpoint *)

(** [fastapi.openapi.utils.get_openapi]: the metadata and the routes that
    are shown in the schema. *)
Definition get_openapi (s : AppState) (rs : list Route) : OpenAPI :=
  {| info_title := title s;
     info_description := description s;
     info_version := version s;
     schema_paths :=
       map (fun r => (path r, methods r)) (filter include_in_schema rs) |}.

(** [FastAPI.openapi()]: build the schema once, then serve the cached one.
    The routing table of an application that is being served does not
    change, so a cached schema is the one that would be built again (see
    [cache_never_stale]). *)
Definition openapi (rs : list Route) : M AppState OpenAPI :=
  s <- get_state ;;
  match openapi_schema s with
  | Some schema => ret schema
  | None =>
      let schema := get_openapi s rs in
      _ <- put_state
             {| title := title s;
                description := description s;
                version := version s;
                openapi_url := openapi_url s;
                docs_url := docs_url s;
                redoc_url := redoc_url s;
                swagger_ui_oauth2_redirect_url := swagger_ui_oauth2_redirect_url s;
                openapi_schema := Some schema |} ;;
      ret schema
  end.

(** [root_path + self.openapi_url]: string concatenation, a [TypeError]
    on [None]. *)
Definition required_url (o : option string) : M AppState string :=
  match o with
  | Some u => ret u
  | None => raise (Exception "TypeError")
  end.

Definition default_status (r : Route) : Z :=
  match status_code r with
  | Some c => c
  | None => 200
  end.

(** The ASGI application of a route.  A path operation function is
    called, its result encoded and sent as a [JSONResponse] with status
    200 unless the route names another; an exception of the function or
    of the encoder propagates. *)
Definition run_endpoint (rs : list Route) (r : Route) : M AppState Response :=
  match endpoint r with
  | PathOperation _ func =>
      v <- func ;;
      j <- lift (jsonable_encoder v) ;;
      ret (mkResponse (default_status r) (JSONContent j))
  | OpenAPIEndpoint =>
      schema <- openapi rs ;;
      ret (mkResponse 200 (SchemaContent schema))
  | SwaggerUIHtml =>
      s <- get_state ;;
      u <- required_url (openapi_url s) ;;
      ret (mkResponse 200
             (HTMLContent
                (SwaggerUI u (title s ++ " - Swagger UI")
                   (if truthy (swagger_ui_oauth2_redirect_url s)
                    then swagger_ui_oauth2_redirect_url s
                    else None))))
  | SwaggerUIRedirect =>
      ret (mkResponse 200 (HTMLContent OAuth2Redirect))
  | RedocHtml =>
      s <- get_state ;;
      u <- required_url (openapi_url s) ;;
      ret (mkResponse 200 (HTMLContent (ReDoc u (title s ++ " - ReDoc"))))
  end.

(** [Route.handle]: a request whose method the route does not answer is
    refused with 405, any other is passed to the endpoint. *)
Definition handle (rs : list Route) (r : Route) (req : Request) : M AppState Response :=
  if allows r (method req)
  then run_endpoint rs r
  else raise (HTTPException 405 "Method Not Allowed").

(** *** The router *)

(** The loop of [Router.app]: the first route that matches in full is
    taken at once; failing that, the first route that matches in part. *)
Fixpoint route_loop (rs : list Route) (req : Request) (partial : option Route)
  : option Route :=
  match rs with
  | [] => partial
  | r :: rest =>
      match matches r req with
      | FULL => Some r
      | PARTIAL =>
          route_loop rest req
            (match partial with
             | None => Some r
             | Some _ => partial
             end)
      | NONE => route_loop rest req partial
      end
  end.

Definition endswith_slash (p : string) : bool :=
  match String.get (Nat.pred (String.length p)) p with
  | Some c => Ascii.eqb c "/"
  | None => false
  end.

(** [str.rstrip("/")] *)
Fixpoint rstrip_slash (p : string) : string :=
  match p with
  | EmptyString => EmptyString
  | String c rest =>
      match rstrip_slash rest with
      | EmptyString => if Ascii.eqb c "/" then EmptyString else String c EmptyString
      | stripped => String c stripped
      end
  end.

(** The scope tried when nothing matched: the same request with the
    trailing slashes removed, or one added. *)
Definition redirect_scope (req : Request) : Request :=
  {| method := method req;
     url_path :=
       if endswith_slash (url_path req)
       then rstrip_slash (url_path req)
       else url_path req ++ "/";
     query_string := query_string req;
     headers := headers req;
     body := body req |}.

(** The bytes [lo..hi]. *)
Definition byte_in (lo hi : nat) (b : ascii) : bool :=
  Nat.leb lo (nat_of_ascii b) && Nat.leb (nat_of_ascii b) hi.

(** The second byte that a three-byte and a four-byte sequence allow
    after their first: no overlong form, no surrogate, nothing above
    U+10FFFF. *)
Definition second_of_three (b1 b2 : ascii) : bool :=
  if byte_in 224 224 b1 then byte_in 160 191 b2
  else if byte_in 237 237 b1 then byte_in 128 159 b2
  else byte_in 128 191 b2.

Definition second_of_four (b1 b2 : ascii) : bool :=
  if byte_in 240 240 b1 then byte_in 144 191 b2
  else if byte_in 244 244 b1 then byte_in 128 143 b2
  else byte_in 128 191 b2.

(** The byte strings that the strict UTF-8 codec decodes. *)
Fixpoint utf8_well_formed (bs : string) : bool :=
  match bs with
  | EmptyString => true
  | String b1 rest1 =>
      if byte_in 0 127 b1 then utf8_well_formed rest1
      else
        match rest1 with
        | EmptyString => false
        | String b2 rest2 =>
            if byte_in 194 223 b1
            then byte_in 128 191 b2 && utf8_well_formed rest2
            else
              match rest2 with
              | EmptyString => false
              | String b3 rest3 =>
                  if byte_in 224 239 b1
                  then second_of_three b1 b2 && byte_in 128 191 b3
                       && utf8_well_formed rest3
                  else
                    match rest3 with
                    | EmptyString => false
                    | String b4 rest4 =>
                        byte_in 240 244 b1 && second_of_four b1 b2
                        && byte_in 128 191 b3 && byte_in 128 191 b4
                        && utf8_well_formed rest4
                    end
              end
        end
  end.

(** [bytes.decode()]: UTF-8, strict.  The text is kept as its bytes. *)
Definition decode (bs : string) : result string :=
  if utf8_well_formed bs
  then Return bs
  else Raise (Exception "UnicodeDecodeError").

(** The first [host] header of a scope. *)
Fixpoint host_header (hs : list (string * string)) : option string :=
  match hs with
  | [] => None
  | (key, value) :: rest =>
      if String.eqb key "host" then Some value else host_header rest
  end.

(** [URL(scope=...)]: a query string that is not empty is decoded, and
    one that is not UTF-8 makes the constructor raise. *)
Definition URL_of_scope (req : Request) : result URL :=
  if String.eqb (query_string req) ""
  then Return (mkURL (host_header (headers req)) (url_path req) None)
  else
    match decode (query_string req) with
    | Return q => Return (mkURL (host_header (headers req)) (url_path req) (Some q))
    | Raise e => Raise e
    end.

Definition matches_somehow (req : Request) (r : Route) : bool :=
  match matches r req with
  | NONE => false
  | _ => true
  end.

(** [Router.app] followed by [Router.not_found].  The redirect is built
    with [RedirectResponse(url=str(URL(scope=redirect_scope)))], so it is
    sent only if that URL can be built. *)
Definition router (app : FastAPI) (req : Request) : M AppState Response :=
  match route_loop (routes app) req None with
  | Some r => handle (routes app) r req
  | None =>
      if redirect_slashes app
         && negb (String.eqb (url_path req) "/")
         && existsb (matches_somehow (redirect_scope req)) (routes app)
      then
        location <- lift (URL_of_scope (redirect_scope req)) ;;
        ret (mkResponse 307 (RedirectTo location))
      else raise (HTTPException 404 "Not Found")
  end.

(** *** Exception handlers *)

Definition is_body_allowed_for_status_code (c : Z) : bool :=
  negb ((c <? 200) || (c =? 204) || (c =? 205) || (c =? 304)).

(** FastAPI's handler for [HTTPException]. *)
Definition http_exception_handler (c : Z) (detail : string) : Response :=
  if is_body_allowed_for_status_code c
  then mkResponse c (JSONContent (JObj [("detail", JStr detail)]))
  else mkResponse c NoBody.

(** [ExceptionMiddleware]: an [HTTPException] becomes a response, any
    other exception goes on. *)
Definition exception_middleware (c : M AppState Response) : M AppState Response :=
  try_except c
    (fun e =>
       match e with
       | HTTPException code detail => ret (http_exception_handler code detail)
       | Exception _ => raise e
       end).

(** [ServerErrorMiddleware]: whatever is still raised becomes a 500. *)
Definition server_error_middleware (c : M AppState Response) (s : AppState)
  : AppState * Response :=
  match c s with
  | (s', Return resp) => (s', resp)
  | (s', Raise _) => (s', mkResponse 500 (PlainText "Internal Server Error"))
  end.

(** One request served by the application: the application afterwards,
    and the response. *)
Definition serve (app : FastAPI) (req : Request) : FastAPI * Response :=
  let (s', resp) :=
    server_error_middleware (exception_middleware (router app req)) (state app) in
  ({| state := s'; routes := routes app; redirect_slashes := redirect_slashes app |},
   resp).

(** A sequence of requests served one after the other. *)
Fixpoint serve_all (app : FastAPI) (reqs : list Request) : FastAPI * list Response :=
  match reqs with
  | [] => (app, [])
  | req :: rest =>
      let (app', resp) := serve app req in
      let (app'', resps) := serve_all app' rest in
      (app'', resp :: resps)
  end.

End Framework.

Export Framework.

(* ====================================================================== *)
(** ** The program: [app/main.py] *)
(* ====================================================================== *)

Module main.

(** [app = FastAPI(title=..., description=..., version=...)] *)
Definition app_created : FastAPI :=
  FastAPI_init "CI/CD Demo API" "Complete CI/CD pipeline demonstration" "1.0.0".

(** [def read_root(): return {"message": ..., "status": "running"}] *)
Definition read_root : Handler :=
  ret (PyDict [("message", PyStr "Hello from CI/CD Pipeline!");
               ("status", PyStr "running")]).

(** [@app.get("/")] applied to [read_root]. *)
Definition app_with_root : FastAPI :=
  Framework.get "/" "read_root" read_root app_created.

(** [def health_check(): return {"status": "healthy"}] *)
Definition health_check : Handler :=
  ret (PyDict [("status", PyStr "healthy")]).

(** [@app.get("/health")] applied to [health_check]: the application
    object once the module is loaded. *)
Definition app : FastAPI :=
  Framework.get "/health" "health_check" health_check app_with_root.

End main.

Export main.

(* ====================================================================== *)
(** ** Vocabulary of the properties *)
(* ====================================================================== *)

(** The loaded application with its attributes in state [s]: the routes
    are those of [app], the attributes whatever earlier requests left. *)
Definition running (s : AppState) : FastAPI :=
  {| state := s;
     routes := routes app;
     redirect_slashes := redirect_slashes app |}.

(** The applications that the loaded one can become by serving requests. *)
Inductive reachable : FastAPI -> Prop :=
| reachable_loaded : reachable app
| reachable_served (a : FastAPI) (req : Request) :
    reachable a -> reachable (fst (serve a req)).

(** The attributes of the loaded application with the schema cache at [c]. *)
Definition cached (c : option OpenAPI) : AppState :=
  {| title := title (state app);
     description := description (state app);
     version := version (state app);
     openapi_url := openapi_url (state app);
     docs_url := docs_url (state app);
     redoc_url := redoc_url (state app);
     swagger_ui_oauth2_redirect_url := swagger_ui_oauth2_redirect_url (state app);
     openapi_schema := c |}.

(** The two routes that [main.py] registers. *)
Definition root_route : Route :=
  mkRoute "/" ["GET"] (PathOperation "read_root" read_root) None true.

Definition health_route : Route :=
  mkRoute "/health" ["GET"] (PathOperation "health_check" health_check) None true.

(** The four routes that the constructor installs. *)
Definition documentation_routes : list Route :=
  [ mkRoute "/openapi.json" ["GET"; "HEAD"] OpenAPIEndpoint None false;
    mkRoute "/docs" ["GET"; "HEAD"] SwaggerUIHtml None false;
    mkRoute "/docs/oauth2-redirect" ["GET"; "HEAD"] SwaggerUIRedirect None false;
    mkRoute "/redoc" ["GET"; "HEAD"] RedocHtml None false ].

Definition is_path_operation (r : Route) : bool :=
  match endpoint r with
  | PathOperation _ _ => true
  | _ => false
  end.

(** The two response bodies. *)
Definition root_body : json :=
  JObj [("message", JStr "Hello from CI/CD Pipeline!"); ("status", JStr "running")].

Definition health_body : json :=
  JObj [("status", JStr "healthy")].

(** A request is for path [p] when its path is [p], or [p] and one line
    feed (see [path_regex_match]). *)
Definition path_is (p : string) (req : Request) : Prop :=
  url_path req = p \/ url_path req = p ++ LF.

(** Requests answered by one of the two handlers ... *)
Definition for_handler (req : Request) : Prop :=
  method req = "GET" /\ (path_is "/" req \/ path_is "/health" req).

(** ... and by one of the documentation routes. *)
Definition for_documentation (req : Request) : Prop :=
  (method req = "GET" \/ method req = "HEAD") /\
  (path_is "/openapi.json" req \/ path_is "/docs" req \/
   path_is "/docs/oauth2-redirect" req \/ path_is "/redoc" req).


(** "The two handler routes are all the routes there are." *)
Definition only_two_routes : Prop :=
  routes app = [root_route; health_route].

(** The schema document of the loaded application. *)
Definition the_schema : OpenAPI := get_openapi (state app) (routes app).

(** Requests whose path is the path of one of the six routes. *)
Definition known_path (req : Request) : Prop :=
  path_is "/" req \/ path_is "/health" req \/
  path_is "/openapi.json" req \/ path_is "/docs" req \/
  path_is "/docs/oauth2-redirect" req \/ path_is "/redoc" req.

(** The paths of the routes other than [/]. *)
Definition long_paths : list string :=
  ["/health"; "/openapi.json"; "/docs"; "/docs/oauth2-redirect"; "/redoc"].

(** [n] slashes. *)
Fixpoint slashes (n : nat) : string :=
  match n with
  | O => EmptyString
  | S k => String "/"%char (slashes k)
  end.

(** The request [req] sent to path [p] instead. *)
Definition with_path (p : string) (req : Request) : Request :=
  {| method := method req;
     url_path := p;
     query_string := query_string req;
     headers := headers req;
     body := body req |}.

(** The two error answers of the router, as the exception handler sends
    them. *)
Definition method_not_allowed : Response :=
  mkResponse 405 (JSONContent (JObj [("detail", JStr "Method Not Allowed")])).

Definition not_found : Response :=
  mkResponse 404 (JSONContent (JObj [("detail", JStr "Not Found")])).

(** The answer to a request during which something other than an
    [HTTPException] was raised. *)
Definition server_error : Response :=
  mkResponse 500 (PlainText "Internal Server Error").

(** The URL of the request [req] sent to path [p] instead: the host
    header, [p], and the query string unless it is empty. *)
Definition location_of (p : string) (req : Request) : URL :=
  mkURL (host_header (headers req)) p
    (if String.eqb (query_string req) "" then None else Some (query_string req)).

(* ====================================================================== *)
(** ** Facts about the framework *)
(* ====================================================================== *)

(** Encoding a list of [str] values never raises. *)
Lemma str_items_encode (items : list (string * value)) :
  forallb (fun kv => is_str (snd kv)) items = true ->
  exists js, jsonable_encoder (PyDict items) = Return (JObj js).
Proof.
  induction items as [| [k v] rest IH]; intros Hall.
  - exists []. reflexivity.
  - cbn [forallb] in Hall. apply andb_true_iff in Hall as [Hv Hrest].
    destruct (IH Hrest) as [js Hjs].
    destruct v; cbn in Hv; try discriminate.
    cbn [jsonable_encoder] in Hjs |- *.
    destruct ((fix encode_items (l : list (string * value)) :=
                 match l with
                 | [] => Return []
                 | (k0, x) :: rest0 =>
                     match jsonable_encoder x with
                     | Raise e => Raise e
                     | Return j =>
                         match encode_items rest0 with
                         | Raise e => Raise e
                         | Return js0 => Return ((k0, j) :: js0)
                         end
                     end
                 end) rest) as [js' | e] eqn:Henc.
    + eexists. reflexivity.
    + discriminate.
Qed.

Lemma str_dict_encodes (v : value) :
  str_dict v = true -> exists j, jsonable_encoder v = Return j.
Proof.
  destruct v; cbn [str_dict]; try discriminate.
  intros H. destruct (str_items_encode items H) as [js Hjs]. eauto.
Qed.

(** The encoder does refuse some values. *)
Lemma opaque_object_not_encodable :
  jsonable_encoder (PyList [PyStr "ok"; PyObject "object"]) = Raise (Exception "ValueError").
Proof. reflexivity. Qed.

(** The routing table of the loaded application. *)
Lemma routes_app :
  routes app = (documentation_routes ++ [root_route; health_route])%list.
Proof. reflexivity. Qed.

Section RouterFacts.

Variable req : Request.

Lemma path_regex_match_spec (p : string) :
  path_regex_match p (url_path req) = true <-> path_is p req.
Proof.
  unfold path_regex_match, path_is.
  rewrite orb_true_iff, !String.eqb_eq. reflexivity.
Qed.

Lemma allows_spec (r : Route) :
  allows r (method req) = true <->
  methods r = [] \/ In (method req) (methods r).
Proof.
  unfold allows. destruct (methods r) as [| m ms] eqn:Hms.
  - split; auto.
  - rewrite existsb_exists. split.
    + intros [x [Hin Heq]]. apply String.eqb_eq in Heq. subst x. now right.
    + intros [Hnil | Hin]; [discriminate |].
      exists (method req). split; [assumption | apply String.eqb_refl].
Qed.

Lemma matches_full_spec (r : Route) :
  matches r req = FULL <->
  path_is (path r) req /\ (methods r = [] \/ In (method req) (methods r)).
Proof.
  rewrite <- path_regex_match_spec, <- allows_spec. unfold matches.
  destruct (path_regex_match (path r) (url_path req));
    destruct (allows r (method req)); split;
    try discriminate; try tauto; intros [? ?]; discriminate.
Qed.

Lemma matches_partial_refused (r : Route) :
  matches r req = PARTIAL -> allows r (method req) = false.
Proof.
  unfold matches.
  destruct (path_regex_match (path r) (url_path req));
    destruct (allows r (method req)); congruence.
Qed.

(** Without a full match the loop ends on the first partial match, if
    there is one. *)
Lemma route_loop_without_full (rs : list Route) :
  (forall r, In r rs -> matches r req <> FULL) ->
  forall partial : option Route,
    match route_loop rs req partial with
    | None => partial = None
    | Some r => partial = Some r \/ (In r rs /\ matches r req = PARTIAL)
    end.
Proof.
  induction rs as [| r0 rest IH]; intros Hnone partial.
  - cbn. destruct partial; auto.
  - cbn [route_loop].
    assert (Hrest : forall r, In r rest -> matches r req <> FULL)
      by (intros r Hin; apply Hnone; now right).
    destruct (matches r0 req) eqn:Hm.
    + specialize (IH Hrest partial).
      destruct (route_loop rest req partial); [| assumption].
      destruct IH as [-> | [Hin Hp]]; [now left | right; split; [now right | assumption]].
    + destruct partial as [p |].
      * specialize (IH Hrest (Some p)).
        destruct (route_loop rest req (Some p)); [| discriminate].
        destruct IH as [-> | [Hin Hp]]; [now left | right; split; [now right | assumption]].
      * specialize (IH Hrest (Some r0)).
        destruct (route_loop rest req (Some r0)); [| discriminate].
        destruct IH as [Heq | [Hin Hp]].
        -- injection Heq as <-. right. split; [now left | assumption].
        -- right. split; [now right | assumption].
    + exfalso. apply (Hnone r0); [now left | assumption].
Qed.

(** With a full match the loop ends on a route that matches in full. *)
Lemma route_loop_with_full (rs : list Route) (partial : option Route) :
  (exists r, In r rs /\ matches r req = FULL) ->
  exists r, route_loop rs req partial = Some r /\ In r rs /\ matches r req = FULL.
Proof.
  revert partial. induction rs as [| r0 rest IH]; intros partial [r [Hin Hm]].
  - destruct Hin.
  - cbn [route_loop]. destruct (matches r0 req) eqn:Hm0.
    + destruct Hin as [-> | Hin]; [congruence |].
      destruct (IH partial (ex_intro _ r (conj Hin Hm))) as [r' [H1 [H2 H3]]].
      exists r'. repeat split; [assumption | now right | assumption].
    + destruct Hin as [-> | Hin]; [congruence |].
      destruct (IH (match partial with None => Some r0 | Some _ => partial end)
                   (ex_intro _ r (conj Hin Hm))) as [r' [H1 [H2 H3]]].
      exists r'. repeat split; [assumption | now right | assumption].
    + exists r0. repeat split; [now left | assumption].
Qed.


End RouterFacts.

(** Which requests match a route of the loaded application in full. *)
Lemma full_match_requests (req : Request) :
  (exists r, In r (routes app) /\ matches r req = FULL) <->
  for_handler req \/ for_documentation req.
Proof.
  unfold for_handler, for_documentation. split.
  - intros [r [Hin Hm]]. apply matches_full_spec in Hm as [Hp Hmeth].
    rewrite routes_app in Hin. cbn in Hin.
    repeat (destruct Hin as [<- | Hin]); try (destruct Hin);
      cbn in Hp, Hmeth;
      (destruct Hmeth as [Hnil | Hmeth]; [discriminate |]); cbn in Hmeth;
      intuition (try congruence; auto 10).
  - assert (Hget : In "GET" ["GET"]) by (now left).
    assert (Hget2 : In "GET" ["GET"; "HEAD"]) by (now left).
    assert (Hhead : In "HEAD" ["GET"; "HEAD"]) by (right; now left).
    intros [[Hm Hp] | [Hm Hp]].
    + destruct Hp as [Hp | Hp];
        [exists root_route | exists health_route];
        (split; [rewrite routes_app; cbn; auto 10 |]);
        apply matches_full_spec; cbn; rewrite Hm; auto.
    + destruct Hp as [Hp | [Hp | [Hp | Hp]]];
        [exists (mkRoute "/openapi.json" ["GET"; "HEAD"] OpenAPIEndpoint None false)
        |exists (mkRoute "/docs" ["GET"; "HEAD"] SwaggerUIHtml None false)
        |exists (mkRoute "/docs/oauth2-redirect" ["GET"; "HEAD"] SwaggerUIRedirect None false)
        |exists (mkRoute "/redoc" ["GET"; "HEAD"] RedocHtml None false)];
        (split; [rewrite routes_app; cbn; auto 10 |]);
        apply matches_full_spec; cbn; (split; [assumption |]);
        right; destruct Hm as [-> | ->]; assumption.
Qed.

(** The exception handlers leave the attributes as the router left them. *)
Lemma middleware_state (c : M AppState Response) (s : AppState) :
  fst (server_error_middleware (exception_middleware c) s) = fst (c s).
Proof.
  unfold server_error_middleware, exception_middleware, try_except.
  destruct (c s) as [s' [resp | [code detail | cls]]]; reflexivity.
Qed.

Lemma serve_state (a : FastAPI) (req : Request) :
  fst (serve a req) =
  {| state := fst (router a req (state a));
     routes := routes a;
     redirect_slashes := redirect_slashes a |}.
Proof.
  unfold serve. rewrite <- middleware_state.
  destruct (server_error_middleware (exception_middleware (router a req)) (state a)).
  reflexivity.
Qed.

Lemma route_loop_in (req : Request) (rs : list Route) :
  forall (partial : option Route) (r : Route),
    route_loop rs req partial = Some r -> partial = Some r \/ In r rs.
Proof.
  induction rs as [| r0 rest IH]; intros partial r Hloop; cbn [route_loop] in Hloop.
  - now left.
  - destruct (matches r0 req).
    + destruct (IH _ _ Hloop); [now left | right; now right].
    + destruct (IH _ _ Hloop) as [Hp | Hin]; [| right; now right].
      destruct partial; [now left |].
      injection Hp as <-. right. now left.
    + injection Hloop as <-. right. now left.
Qed.

(** Serving a request touches nothing but the schema cache. *)
Lemma handle_keeps_settings (r : Route) (req : Request) (c : option OpenAPI) :
  In r (routes app) ->
  exists c', fst (handle (routes app) r req (cached c)) = cached c'.
Proof.
  intros Hin. rewrite routes_app in Hin. cbn in Hin.
  unfold handle.
  repeat (destruct Hin as [<- | Hin]); try (destruct Hin);
    destruct (allows _ (method req)); try (exists c; reflexivity).
  destruct c as [schema |]; cbn; eexists; reflexivity.
Qed.

Lemma serve_keeps_settings (req : Request) (c : option OpenAPI) :
  exists c', fst (serve (running (cached c)) req) = running (cached c').
Proof.
  rewrite serve_state. unfold router. cbn [routes state running redirect_slashes].
  destruct (route_loop (routes app) req None) as [r |] eqn:Hloop.
  - apply route_loop_in in Hloop as [Habs | Hin]; [discriminate |].
    destruct (handle_keeps_settings r req c Hin) as [c' Hc'].
    exists c'. unfold running. now rewrite Hc'.
  - exists c.
    destruct (redirect_slashes app && negb (String.eqb (url_path req) "/")
              && existsb (matches_somehow (redirect_scope req)) (routes app));
      [| reflexivity].
    unfold bind, lift. destruct (URL_of_scope (redirect_scope req)); reflexivity.
Qed.

Lemma reachable_running (a : FastAPI) :
  reachable a -> exists c, a = running (cached c).
Proof.
  induction 1 as [| a req _ [c ->]].
  - exists None. reflexivity.
  - apply serve_keeps_settings.
Qed.

(** The schema cache is real state: the first request for the schema
    fills it. *)
Lemma schema_request_writes_cache :
  fst (serve app (mkRequest "GET" "/openapi.json" "" [] "")) <> app.
Proof. cbn. intros H. discriminate H. Qed.

(** [GET /]: helper used by several properties. *)
Lemma serve_root (s : AppState) (req : Request) :
  method req = "GET" -> url_path req = "/" ->
  serve (running s) req = (running s, mkResponse 200 (JSONContent root_body)).
Proof.
  destruct req as [m p q h b]. cbn [method url_path]. intros -> ->. reflexivity.
Qed.

(** [GET /health]: helper used by several properties. *)
Lemma serve_health (s : AppState) (req : Request) :
  method req = "GET" -> url_path req = "/health" ->
  serve (running s) req = (running s, mkResponse 200 (JSONContent health_body)).
Proof.
  destruct req as [m p q h b]. cbn [method url_path]. intros -> ->. reflexivity.
Qed.

Lemma serve_all_constant (a : FastAPI) (resp : Response) (reqs : list Request) :
  Forall (fun req => serve a req = (a, resp)) reqs ->
  serve_all a reqs = (a, repeat resp (length reqs)).
Proof.
  induction 1 as [| req rest Hreq _ IH]; cbn [serve_all length repeat].
  - reflexivity.
  - rewrite Hreq, IH. reflexivity.
Qed.

(** On every reachable state, a request that matches a route in full is
    answered with 200. *)
Lemma matched_request_200 (c : option OpenAPI) (req : Request) :
  for_handler req \/ for_documentation req ->
  status (snd (serve (running (cached c)) req)) = 200.
Proof.
  intros Hreq. apply full_match_requests in Hreq.
  destruct (route_loop_with_full req (routes app) None Hreq) as [r [Hloop [Hin Hm]]].
  assert (Hallow : allows r (method req) = true).
  { apply allows_spec. apply matches_full_spec in Hm. tauto. }
  unfold serve, router. cbn [routes state running redirect_slashes].
  rewrite Hloop. unfold handle. rewrite Hallow.
  rewrite routes_app in Hin. cbn in Hin.
  repeat (destruct Hin as [<- | Hin]); try (destruct Hin);
    destruct c; reflexivity.
Qed.

(** A redirect, unlike the handlers' answers, does depend on the request. *)
Lemma redirect_depends_on_query :
  snd (serve app (mkRequest "GET" "/health/" "a=1" [] "")) <>
  snd (serve app (mkRequest "GET" "/health/" "a=2" [] "")).
Proof. cbn. intros H. discriminate H. Qed.

(** The metadata stays what the constructor was given, whatever is served. *)
Lemma metadata_constant (a : FastAPI) :
  reachable a ->
  title (state a) = "CI/CD Demo API" /\
  description (state a) = "Complete CI/CD pipeline demonstration" /\
  version (state a) = "1.0.0".
Proof.
  intros Hr. destruct (reachable_running a Hr) as [c ->]. repeat split.
Qed.

(** The metadata is what the schema route shows. *)
Lemma metadata_in_schema :
  snd (serve app (mkRequest "GET" "/openapi.json" "" [] "")) =
  mkResponse 200
    (SchemaContent
       (mkOpenAPI "CI/CD Demo API" "Complete CI/CD pipeline demonstration" "1.0.0"
          [("/", ["GET"]); ("/health", ["GET"])])).
Proof. reflexivity. Qed.

(** At any time in the life of the server, the two routes answer as they
    do on the freshly loaded application. *)
Lemma served_any_time (a : FastAPI) (req : Request) :
  reachable a ->
  method req = "GET" ->
  (url_path req = "/" ->
   serve a req = (a, mkResponse 200 (JSONContent root_body))) /\
  (url_path req = "/health" ->
   serve a req = (a, mkResponse 200 (JSONContent health_body))).
Proof.
  intros Hr Hm. destruct (reachable_running a Hr) as [c ->].
  split; intros Hp; [apply serve_root | apply serve_health]; assumption.
Qed.

(* ====================================================================== *)
(** ** Properties of the service *)
(* ====================================================================== *)

(** C1. Every [GET] request for [/], whatever its query string, headers
    and body and whatever the application's attributes, is routed to
    [read_root] and answered with status 200 and the JSON object
    [{"message": "Hello from CI/CD Pipeline!", "status": "running"}],
    which has these two members and no other; the attributes are left
    untouched. *)
Theorem get_root_response :
  forall (s : AppState) (q : string) (h : list (string * string)) (b : string),
    route_loop (routes app) (mkRequest "GET" "/" q h b) None = Some root_route /\
    endpoint root_route = PathOperation "read_root" read_root /\
    serve (running s) (mkRequest "GET" "/" q h b) =
      (running s,
       mkResponse 200
         (JSONContent
            (JObj [("message", JStr "Hello from CI/CD Pipeline!");
                   ("status", JStr "running")]))).
Proof.
  intros s q h b. repeat split.
Qed.

(** C2. Every [GET] request for [/health] is routed to [health_check] and
    answered with status 200 and the JSON object [{"status": "healthy"}],
    which has this one member and no other; the attributes are left
    untouched. *)
Theorem get_health_response :
  forall (s : AppState) (q : string) (h : list (string * string)) (b : string),
    route_loop (routes app) (mkRequest "GET" "/health" q h b) None = Some health_route /\
    endpoint health_route = PathOperation "health_check" health_check /\
    serve (running s) (mkRequest "GET" "/health" q h b) =
      (running s,
       mkResponse 200 (JSONContent (JObj [("status", JStr "healthy")]))).
Proof.
  intros s q h b. repeat split.
Qed.




(** C4. Both endpoints are idempotent: in any sequence of [GET] calls to
    [/], or of [GET] calls to [/health], every call returns the very
    output of the first call, and the application after the sequence is
    the application before it. *)
Theorem repeated_get_idempotent :
  forall (s : AppState) (p : string) (reqs : list Request),
    p = "/" \/ p = "/health" ->
    Forall (fun req => method req = "GET" /\ url_path req = p) reqs ->
    fst (serve_all (running s) reqs) = running s /\
    forall first : Request,
      hd_error reqs = Some first ->
      snd (serve_all (running s) reqs) =
        repeat (snd (serve (running s) first)) (length reqs).
Proof.
  intros s p reqs Hp Hreqs.
  assert (Hconst : exists resp,
             Forall (fun req => serve (running s) req = (running s, resp)) reqs).
  { destruct Hp as [-> | ->]; eexists;
      (eapply Forall_impl; [| exact Hreqs]); intros req [Hm Hpath]; cbv beta.
    - apply serve_root; assumption.
    - apply serve_health; assumption. }
  destruct Hconst as [resp Hconst].
  rewrite (serve_all_constant _ resp reqs Hconst). split; [reflexivity |].
  intros first Hfirst. destruct reqs as [| r rest]; [discriminate |].
  injection Hfirst as ->. inversion Hconst as [| ? ? Hr _]. subst.
  rewrite Hr. reflexivity.
Qed.

Lemma repeated_get_idempotent_witness :
  ("/health" = "/" \/ "/health" = "/health") /\
  Forall (fun req => method req = "GET" /\ url_path req = "/health")
    [mkRequest "GET" "/health" "" [] "";
     mkRequest "GET" "/health" "probe=1" [("user-agent", "kube-probe")] "";
     mkRequest "GET" "/health" "" [] "ignored"] /\
  serve_all app
    [mkRequest "GET" "/health" "" [] "";
     mkRequest "GET" "/health" "probe=1" [("user-agent", "kube-probe")] "";
     mkRequest "GET" "/health" "" [] "ignored"] =
  (app, repeat (mkResponse 200 (JSONContent health_body)) 3).
Proof.
  assert (Hp : "/health" = "/" \/ "/health" = "/health") by (right; reflexivity).
  assert (Hreqs : Forall (fun req => method req = "GET" /\ url_path req = "/health")
            [mkRequest "GET" "/health" "" [] "";
             mkRequest "GET" "/health" "probe=1" [("user-agent", "kube-probe")] "";
             mkRequest "GET" "/health" "" [] "ignored"]).
  { repeat constructor. }
  split; [exact Hp | split; [exact Hreqs |]].
  destruct (repeated_get_idempotent (state app) "/health" _ Hp Hreqs) as [Hstate Hout].
  specialize (Hout _ eq_refl).
  apply injective_projections; [exact Hstate | exact Hout].
Defined.

(** C5, as stated, fails: the routing table holds more than the two
    handler routes; the route of the documentation page is in it. *)
Lemma docs_route_is_registered :
  In (mkRoute "/docs" ["GET"; "HEAD"] SwaggerUIHtml None false) (routes app) /\
  length (routes app) = 6%nat /\
  ~ only_two_routes.
Proof.
  repeat split.
  - rewrite routes_app. cbn. auto.
  - unfold only_two_routes. rewrite routes_app. intros H. discriminate H.
Qed.

(** C5, amended. [main.py] registers exactly two routes on the
    application object, [GET /] for [read_root] and then [GET /health]
    for [health_check]; they are its only path operations and the only
    routes shown in its schema.  Before them the routing table holds the
    four documentation routes that the constructor installs
    ([/openapi.json], [/docs], [/docs/oauth2-redirect] and [/redoc], each
    for [GET] and [HEAD]), and nothing else. *)
Theorem registered_routes :
  routes app_created = documentation_routes /\
  routes app_with_root = (routes app_created ++ [root_route])%list /\
  routes app = (routes app_with_root ++ [health_route])%list /\
  routes app = (documentation_routes ++ [root_route; health_route])%list /\
  filter is_path_operation (routes app) = [root_route; health_route] /\
  filter include_in_schema (routes app) = [root_route; health_route] /\
  methods root_route = ["GET"] /\ path root_route = "/" /\
  endpoint root_route = PathOperation "read_root" read_root /\
  methods health_route = ["GET"] /\ path health_route = "/health" /\
  endpoint health_route = PathOperation "health_check" health_check.
Proof.
  repeat split.
Qed.

(** C6. The metadata of the application object is the three constants of
    the constructor call: title "CI/CD Demo API", description "Complete
    CI/CD pipeline demonstration" and version "1.0.0"; the two
    registrations leave it as the constructor set it. *)
Theorem app_metadata :
  title (state app) = "CI/CD Demo API" /\
  description (state app) = "Complete CI/CD pipeline demonstration" /\
  version (state app) = "1.0.0" /\
  state app = state app_created.
Proof.
  repeat split.
Qed.

(** C7. Neither handler can fail and neither has a side effect: called in
    any state, [read_root] and [health_check] return their dict, raise
    nothing, and leave the state as it was. *)
Theorem handlers_never_raise :
  forall s : AppState,
    (forall e : exn, snd (read_root s) <> Raise e) /\
    (forall e : exn, snd (health_check s) <> Raise e) /\
    fst (read_root s) = s /\
    fst (health_check s) = s /\
    read_root s =
      (s, Return (PyDict [("message", PyStr "Hello from CI/CD Pipeline!");
                          ("status", PyStr "running")])) /\
    health_check s = (s, Return (PyDict [("status", PyStr "healthy")])).
Proof.
  intros s. repeat split; intros e H; discriminate H.
Qed.

(** C8. The answer of a handler does not depend on the request: two [GET]
    requests for the same endpoint, [/] or [/health], get equal responses
    whatever their query strings, headers and bodies are, and whatever
    state the application's attributes are in. *)
Theorem response_independent_of_request :
  forall (s1 s2 : AppState) (p : string) (req1 req2 : Request),
    p = "/" \/ p = "/health" ->
    method req1 = "GET" -> url_path req1 = p ->
    method req2 = "GET" -> url_path req2 = p ->
    snd (serve (running s1) req1) = snd (serve (running s2) req2).
Proof.
  intros s1 s2 p req1 req2 [-> | ->] Hm1 Hp1 Hm2 Hp2.
  - rewrite (serve_root s1 req1 Hm1 Hp1), (serve_root s2 req2 Hm2 Hp2). reflexivity.
  - rewrite (serve_health s1 req1 Hm1 Hp1), (serve_health s2 req2 Hm2 Hp2). reflexivity.
Qed.

Lemma response_independent_of_request_witness :
  ("/" = "/" \/ "/" = "/health") /\
  snd (serve app (mkRequest "GET" "/" "" [] "")) =
  snd (serve (running (cached (Some (get_openapi (state app) (routes app)))))
         (mkRequest "GET" "/" "x=1&y=2" [("authorization", "Bearer t"); ("accept", "text/html")]
            "payload")).
Proof.
  split; [left; reflexivity |].
  exact (response_independent_of_request
           (state app) (cached (Some (get_openapi (state app) (routes app)))) "/"
           (mkRequest "GET" "/" "" [] "")
           (mkRequest "GET" "/" "x=1&y=2"
              [("authorization", "Bearer t"); ("accept", "text/html")] "payload")
           (or_introl eq_refl) eq_refl eq_refl eq_refl eq_refl).
Defined.

(** C9. Both handlers are total: on every call, in whatever state,
    [read_root] and [health_check] end and return a value. *)
Theorem handlers_total :
  forall s : AppState,
    (exists (s' : AppState) (v : value), read_root s = (s', Return v)) /\
    (exists (s' : AppState) (v : value), health_check s = (s', Return v)).
Proof.
  intros s. split; eexists; eexists; reflexivity.
Qed.

(** C10. Whatever a handler returns is a dict from [str] keys to [str]
    values with distinct keys, and such a value is always encoded: the
    encoder returns a JSON object for it and raises nothing. *)
Theorem handler_results_serializable :
  forall s : AppState,
    (exists (items : list (string * value)) (j : json),
        snd (read_root s) = Return (PyDict items) /\
        str_dict (PyDict items) = true /\
        NoDup (map fst items) /\
        jsonable_encoder (PyDict items) = Return j /\
        j = root_body) /\
    (exists (items : list (string * value)) (j : json),
        snd (health_check s) = Return (PyDict items) /\
        str_dict (PyDict items) = true /\
        NoDup (map fst items) /\
        jsonable_encoder (PyDict items) = Return j /\
        j = health_body) /\
    (forall v : value,
        str_dict v = true -> exists j : json, jsonable_encoder v = Return j).
Proof.
  intros s. split; [| split].
  - do 2 eexists. repeat split.
    repeat constructor; cbn; intuition discriminate.
  - do 2 eexists. repeat split.
    repeat constructor; cbn; intuition discriminate.
  - apply str_dict_encodes.
Qed.

(* ====================================================================== *)
(** ** More facts about the router *)
(* ====================================================================== *)

Lemma matches_none_spec (r : Route) (req : Request) :
  matches r req = NONE <-> ~ path_is (path r) req.
Proof.
  rewrite <- path_regex_match_spec. unfold matches.
  destruct (path_regex_match (path r) (url_path req));
    destruct (allows r (method req)); split;
    try discriminate; try congruence; intros H; exfalso; apply H; reflexivity.
Qed.

(** The loop ends empty-handed only when no route even matches the path. *)
Lemma route_loop_none (req : Request) (rs : list Route) :
  forall partial : option Route,
    route_loop rs req partial = None <->
    partial = None /\ forall r, In r rs -> matches r req = NONE.
Proof.
  induction rs as [| r0 rest IH]; intros partial; cbn [route_loop].
  - split; [intros ->; split; [reflexivity | intros r []] | intros [-> _]; reflexivity].
  - destruct (matches r0 req) eqn:Hm.
    + rewrite IH. split; intros [Hp Hall]; split; try assumption.
      * intros r [<- | Hin]; [assumption | now apply Hall].
      * intros r Hin. apply Hall. now right.
    + rewrite IH. split.
      * intros [Hp _]. destruct partial; discriminate.
      * intros [_ Hall]. specialize (Hall r0 (or_introl eq_refl)). congruence.
    + split; [discriminate |].
      intros [_ Hall]. specialize (Hall r0 (or_introl eq_refl)). congruence.
Qed.

Lemma full_match_dec (req : Request) (rs : list Route) :
  (exists r, In r rs /\ matches r req = FULL) \/
  (forall r, In r rs -> matches r req <> FULL).
Proof.
  induction rs as [| r0 rest [[r [Hin Hm]] | Hnone]].
  - right. intros r [].
  - left. exists r. split; [now right | assumption].
  - destruct (matches r0 req) eqn:Hm0.
    + right. intros r [<- | Hin]; [congruence | now apply Hnone].
    + right. intros r [<- | Hin]; [congruence | now apply Hnone].
    + left. exists r0. split; [now left | assumption].
Qed.

(** A request handed to a route that answers its method: the endpoint
    runs, and the exception handlers turn what it raises into a response. *)
Lemma serve_dispatched (a : FastAPI) (req : Request) (r : Route) :
  route_loop (routes a) req None = Some r ->
  allows r (method req) = true ->
  serve a req =
    ({| state := fst (run_endpoint (routes a) r (state a));
        routes := routes a;
        redirect_slashes := redirect_slashes a |},
     match snd (run_endpoint (routes a) r (state a)) with
     | Return resp => resp
     | Raise (HTTPException c d) => http_exception_handler c d
     | Raise (Exception _) => mkResponse 500 (PlainText "Internal Server Error")
     end).
Proof.
  intros Hloop Hallow.
  unfold serve, server_error_middleware, exception_middleware, try_except, router.
  rewrite Hloop. unfold handle. rewrite Hallow.
  destruct (run_endpoint (routes a) r (state a)) as [s' [resp | [c d | cls]]];
    reflexivity.
Qed.

(** A request whose path is a route's and whose method no such route
    answers: 405, whatever the application. *)
Lemma serve_partial (a : FastAPI) (req : Request) :
  (forall r, In r (routes a) -> matches r req <> FULL) ->
  (exists r, In r (routes a) /\ matches r req <> NONE) ->
  serve a req = (a, method_not_allowed).
Proof.
  intros Hnone [r0 [Hin0 Hm0]].
  unfold serve, server_error_middleware, exception_middleware, try_except, router.
  pose proof (route_loop_without_full req (routes a) Hnone None) as Hloop.
  destruct (route_loop (routes a) req None) as [r |] eqn:Heq.
  - destruct Hloop as [Habs | [Hin Hp]]; [discriminate |].
    unfold handle. rewrite (matches_partial_refused req r Hp). cbn.
    destruct a; reflexivity.
  - apply route_loop_none in Heq as [_ Hall]. elim Hm0. now apply Hall.
Qed.

(** [URL(scope=...)] succeeds exactly on a query string that is
    well-formed UTF-8. *)
Lemma URL_of_scope_spec (req : Request) :
  URL_of_scope req =
    if utf8_well_formed (query_string req)
    then Return (location_of (url_path req) req)
    else Raise (Exception "UnicodeDecodeError").
Proof.
  unfold URL_of_scope, decode, location_of.
  destruct (String.eqb (query_string req) "") eqn:E.
  - apply String.eqb_eq in E. rewrite E. reflexivity.
  - destruct (utf8_well_formed (query_string req)); reflexivity.
Qed.

(** A request whose path is no route's: if the path with its trailing
    slashes toggled is a route's, the redirect, or 500 when the query
    string is not UTF-8; else 404. *)
Lemma serve_unrouted (a : FastAPI) (req : Request) :
  (forall r, In r (routes a) -> matches r req = NONE) ->
  serve a req =
    (a,
     if redirect_slashes a
        && negb (String.eqb (url_path req) "/")
        && existsb (matches_somehow (redirect_scope req)) (routes a)
     then
       if utf8_well_formed (query_string req)
       then mkResponse 307
              (RedirectTo (location_of (url_path (redirect_scope req)) req))
       else server_error
     else not_found).
Proof.
  intros Hall.
  assert (Hloop : route_loop (routes a) req None = None)
    by (apply route_loop_none; auto).
  unfold serve, server_error_middleware, exception_middleware, try_except, router.
  rewrite Hloop.
  destruct (redirect_slashes a && negb (String.eqb (url_path req) "/")
            && existsb (matches_somehow (redirect_scope req)) (routes a)).
  - unfold bind, lift. rewrite URL_of_scope_spec.
    change (query_string (redirect_scope req)) with (query_string req).
    destruct (utf8_well_formed (query_string req)); cbn; destruct a; reflexivity.
  - cbn. destruct a; reflexivity.
Qed.

(** The paths of the loaded application's routes. *)
Lemma known_path_routes (req : Request) :
  (exists r, In r (routes app) /\ matches r req <> NONE) <-> known_path req.
Proof.
  unfold known_path. split.
  - intros [r [Hin Hm]].
    assert (Hp : path_is (path r) req).
    { destruct (path_regex_match (path r) (url_path req)) eqn:E.
      - now apply path_regex_match_spec.
      - elim Hm. unfold matches. now rewrite E. }
    rewrite routes_app in Hin. cbn in Hin.
    repeat (destruct Hin as [<- | Hin]); try (destruct Hin); cbn in Hp; tauto.
  - assert (Hsome : forall r, In r (routes app) -> path_is (path r) req ->
                      exists r, In r (routes app) /\ matches r req <> NONE).
    { intros r Hin Hp. exists r. split; [assumption |].
      intros Hn. apply matches_none_spec in Hn. contradiction. }
    rewrite routes_app in Hsome. cbn [app] in Hsome.
    intros [H | [H | [H | [H | [H | H]]]]];
      [ apply (Hsome root_route)
      | apply (Hsome health_route)
      | apply (Hsome (mkRoute "/openapi.json" ["GET"; "HEAD"] OpenAPIEndpoint None false))
      | apply (Hsome (mkRoute "/docs" ["GET"; "HEAD"] SwaggerUIHtml None false))
      | apply (Hsome (mkRoute "/docs/oauth2-redirect" ["GET"; "HEAD"] SwaggerUIRedirect None false))
      | apply (Hsome (mkRoute "/redoc" ["GET"; "HEAD"] RedocHtml None false)) ];
      try exact H; cbn; auto 10.
Qed.

Lemma unknown_path_none (req : Request) :
  ~ known_path req -> forall r, In r (routes app) -> matches r req = NONE.
Proof.
  intros Hk r Hin. destruct (matches r req) eqn:Hm; [reflexivity | |];
    elim Hk; apply known_path_routes; exists r; split; congruence.
Qed.

(** No two routes of the loaded application have the same path, so a
    request matches at most one of them. *)
Lemma one_route_per_path (req : Request) (r1 r2 : Route) :
  In r1 (routes app) -> In r2 (routes app) ->
  path_is (path r1) req -> path_is (path r2) req -> r1 = r2.
Proof.
  intros Hin1 Hin2 Hp1 Hp2.
  rewrite routes_app in Hin1, Hin2. cbn in Hin1, Hin2.
  repeat (destruct Hin1 as [<- | Hin1]); try (destruct Hin1);
    repeat (destruct Hin2 as [<- | Hin2]); try (destruct Hin2);
    try reflexivity;
    destruct Hp1 as [E1 | E1]; destruct Hp2 as [E2 | E2];
    rewrite E1 in E2; discriminate E2.
Qed.

Lemma route_loop_picks (req : Request) (r : Route) :
  In r (routes app) -> matches r req = FULL ->
  route_loop (routes app) req None = Some r.
Proof.
  intros Hin Hm.
  destruct (route_loop_with_full req (routes app) None
              (ex_intro _ r (conj Hin Hm))) as [r' [Hloop [Hin' Hm']]].
  rewrite Hloop. f_equal.
  apply matches_full_spec in Hm as [Hp _]. apply matches_full_spec in Hm' as [Hp' _].
  exact (one_route_per_path req r' r Hin' Hin Hp' Hp).
Qed.

Lemma app_running : app = running (cached None).
Proof. reflexivity. Qed.

(** What the loaded application answers on a full match, with the schema
    cache empty or holding the schema: the response is the same in both
    states, and the state afterwards is one of the two again. *)
Lemma serve_matched (req : Request) (r : Route) (c : option OpenAPI) :
  In r (routes app) -> matches r req = FULL ->
  c = None \/ c = Some the_schema ->
  snd (serve (running (cached c)) req) = snd (serve app req) /\
  status (snd (serve app req)) = 200 /\
  (fst (serve (running (cached c)) req) = running (cached c) \/
   (c = None /\ endpoint r = OpenAPIEndpoint /\
    fst (serve (running (cached c)) req) = running (cached (Some the_schema)))).
Proof.
  intros Hin Hm Hc.
  pose proof (route_loop_picks req r Hin Hm) as Hloop.
  assert (Hallow : allows r (method req) = true).
  { apply allows_spec. apply matches_full_spec in Hm. tauto. }
  rewrite app_running.
  rewrite (serve_dispatched (running (cached c)) req r Hloop Hallow).
  rewrite (serve_dispatched (running (cached None)) req r Hloop Hallow).
  clear Hloop Hallow Hm.
  rewrite routes_app in Hin. cbn in Hin.
  repeat (destruct Hin as [<- | Hin]); try (destruct Hin);
    destruct Hc as [-> | ->]; cbn;
    repeat split; auto.
Qed.

(** Without a full match the answer does not depend on the attributes. *)
Lemma serve_unmatched (req : Request) (s : AppState) :
  (forall r, In r (routes app) -> matches r req <> FULL) ->
  serve (running s) req = (running s, snd (serve app req)).
Proof.
  intros Hnone.
  destruct (route_loop (routes app) req None) as [r |] eqn:Hloop.
  - assert (Hk : exists r, In r (routes app) /\ matches r req <> NONE).
    { pose proof (route_loop_without_full req (routes app) Hnone None) as H.
      rewrite Hloop in H. destruct H as [H | [Hin Hp]]; [discriminate |].
      exists r. split; [assumption | congruence]. }
    rewrite (serve_partial (running s) req Hnone Hk).
    rewrite (serve_partial app req Hnone Hk). reflexivity.
  - apply route_loop_none in Hloop as [_ Hall].
    rewrite (serve_unrouted (running s) req Hall).
    rewrite (serve_unrouted app req Hall). reflexivity.
Qed.

(** The loaded application has two states: the schema cache empty, as
    loaded, or holding the schema. *)
Lemma reachable_two_states (a : FastAPI) :
  reachable a -> a = app \/ a = running (cached (Some the_schema)).
Proof.
  induction 1 as [| a req _ IH].
  - now left.
  - assert (Hc : exists c, (c = None \/ c = Some the_schema) /\ a = running (cached c)).
    { destruct IH as [-> | ->].
      - exists None. split; [now left | apply app_running].
      - exists (Some the_schema). split; [now right | reflexivity]. }
    destruct Hc as [c [Hc ->]].
    destruct (full_match_dec req (routes app)) as [[r [Hin Hm]] | Hnone].
    + destruct (serve_matched req r c Hin Hm Hc) as [_ [_ [-> | [_ [_ ->]]]]].
      * destruct Hc as [-> | ->]; [now left | now right].
      * now right.
    + rewrite (serve_unmatched req (cached c) Hnone). cbn [fst].
      destruct Hc as [-> | ->]; [now left | now right].
Qed.

(** Strings that end in slashes. *)
Lemma endswith_slash_cons (c : ascii) (t : string) :
  t <> EmptyString -> endswith_slash (String c t) = endswith_slash t.
Proof.
  intros Hne. unfold endswith_slash. destruct t as [| c' t']; [contradiction |].
  reflexivity.
Qed.

Lemma endswith_slash_slashes (s : string) (n : nat) :
  endswith_slash (s ++ slashes (S n)) = true.
Proof.
  induction s as [| c t IH].
  - cbn [append]. induction n as [| k IHk]; [reflexivity |].
    change (slashes (S (S k))) with (String "/"%char (slashes (S k))).
    rewrite endswith_slash_cons; [exact IHk | discriminate].
  - cbn [append]. rewrite endswith_slash_cons; [exact IH |].
    destruct t; discriminate.
Qed.

Lemma rstrip_slash_slashes (s : string) (n : nat) :
  rstrip_slash (s ++ slashes n) = rstrip_slash s.
Proof.
  induction s as [| c t IH].
  - cbn [append]. induction n as [| k IHk]; [reflexivity |].
    cbn [slashes rstrip_slash]. rewrite IHk. reflexivity.
  - cbn [append rstrip_slash]. rewrite IH. reflexivity.
Qed.

Lemma known_path_ends (req : Request) :
  known_path req -> endswith_slash (url_path req) = true -> url_path req = "/".
Proof.
  unfold known_path, path_is. intros Hk Hend.
  assert (Hno : forall q, url_path req = q -> endswith_slash q = false -> False)
    by (intros q <- Hq; congruence).
  destruct Hk as [[H | H] | Hk]; [exact H | elim (Hno _ H); reflexivity |].
  exfalso.
  repeat (destruct Hk as [[H | H] | Hk]; [apply (Hno _ H); reflexivity ..|]).
  destruct Hk as [H | H]; apply (Hno _ H); reflexivity.
Qed.

Lemma slashed_path_unknown (p : string) (n : nat) (req : Request) :
  In p long_paths ->
  url_path req = p ++ slashes (S n) ->
  ~ known_path req.
Proof.
  intros Hp Hpath Hk.
  assert (Hend : endswith_slash (url_path req) = true)
    by (rewrite Hpath; apply endswith_slash_slashes).
  pose proof (known_path_ends req Hk Hend) as Hroot.
  rewrite Hpath in Hroot. unfold long_paths in Hp. cbn in Hp.
  repeat (destruct Hp as [<- | Hp]); try (destruct Hp); cbn in Hroot; discriminate Hroot.
Qed.

Lemma matches_somehow_spec (req : Request) (rs : list Route) :
  existsb (matches_somehow req) rs = true <->
  exists r, In r rs /\ matches r req <> NONE.
Proof.
  rewrite existsb_exists. unfold matches_somehow.
  split; intros [r [Hin H]]; exists r; (split; [assumption |]);
    destruct (matches r req); congruence.
Qed.

(** At any time the application answers as it does freshly loaded. *)
Lemma fresh_response (a : FastAPI) (req : Request) :
  reachable a -> snd (serve a req) = snd (serve app req).
Proof.
  intros Hr. destruct (reachable_two_states a Hr) as [-> | ->]; [reflexivity |].
  destruct (full_match_dec req (routes app)) as [[r [Hin Hm]] | Hnone].
  - apply (serve_matched req r (Some the_schema) Hin Hm). now right.
  - rewrite (serve_unmatched req _ Hnone). reflexivity.
Qed.

(** A schema in the cache is the schema that would be built again. *)
Lemma cache_never_stale (a : FastAPI) (schema : OpenAPI) :
  reachable a ->
  openapi_schema (state a) = Some schema ->
  schema = get_openapi (state a) (routes a).
Proof.
  intros Hr Hc. destruct (reachable_two_states a Hr) as [-> | ->].
  - discriminate Hc.
  - cbn in Hc. injection Hc as <-. reflexivity.
Qed.

(** In any routing table where [r] is the one route whose path the
    request has, the loop ends on [r]. *)
Lemma route_loop_unique (req : Request) (r : Route) (rs : list Route) :
  (forall r', In r' rs -> matches r' req <> NONE -> r' = r) ->
  In r rs ->
  matches r req <> NONE ->
  route_loop rs req None = Some r.
Proof.
  intros Huniq Hin Hm.
  destruct (full_match_dec req rs) as [Hfull | Hnone].
  - destruct (route_loop_with_full req rs None Hfull) as [r1 [Hloop [Hin1 Hm1]]].
    rewrite Hloop. f_equal. apply Huniq; [assumption | congruence].
  - pose proof (route_loop_without_full req rs Hnone None) as Hloop.
    destruct (route_loop rs req None) as [r2 |] eqn:Heq.
    + destruct Hloop as [Habs | [Hin2 Hp2]]; [discriminate |].
      f_equal. apply Huniq; [assumption | congruence].
    + apply route_loop_none in Heq as [_ Hall].
      specialize (Hall r Hin). congruence.
Qed.

(* ====================================================================== *)
(** ** Further properties of the service *)
(* ====================================================================== *)

(** X1. A request for the path of a route with a method that the route
    does not answer -- anything but [GET] on [/] and [/health], [HEAD]
    included; anything but [GET] and [HEAD] on the documentation routes --
    is refused with 405 and the body [{"detail": "Method Not Allowed"}],
    and leaves the application as it was. *)
Theorem wrong_method_is_405 :
  forall (s : AppState) (req : Request),
    known_path req ->
    ~ for_handler req ->
    ~ for_documentation req ->
    serve (running s) req = (running s, method_not_allowed).
Proof.
  intros s req Hk Hh Hd.
  apply (serve_partial (running s) req).
  - intros r Hin Hm. cbn [routes running] in Hin.
    assert (Hex : exists r, In r (routes app) /\ matches r req = FULL) by eauto.
    apply full_match_requests in Hex. tauto.
  - cbn [routes running]. now apply known_path_routes.
Qed.

Lemma wrong_method_is_405_witness :
  known_path (mkRequest "HEAD" "/health" "" [("user-agent", "probe")] "") /\
  serve app (mkRequest "HEAD" "/health" "" [("user-agent", "probe")] "") =
  (app, mkResponse 405 (JSONContent (JObj [("detail", JStr "Method Not Allowed")]))).
Proof.
  assert (Hk : known_path (mkRequest "HEAD" "/health" "" [("user-agent", "probe")] "")).
  { right. left. left. reflexivity. }
  split; [exact Hk |].
  refine (wrong_method_is_405 (state app)
            (mkRequest "HEAD" "/health" "" [("user-agent", "probe")] "") Hk _ _).
  - intros [Hm _]. discriminate Hm.
  - intros [_ Hp]. unfold path_is in Hp. cbn in Hp. intuition discriminate.
Defined.

(** X2. A request, of any method, for the path of a route other than [/]
    with one or more slashes appended is redirected when its query string
    is empty or well-formed UTF-8: status 307, with a location made of the
    request's [host] header, the path without the appended slashes, and
    the query string.  When the query string is not UTF-8 the location
    cannot be built and the answer is 500.  Either way the application is
    left as it was. *)
Theorem trailing_slash_redirect :
  forall (s : AppState) (req : Request) (p : string) (n : nat),
    In p long_paths ->
    url_path req = p ++ slashes (S n) ->
    (utf8_well_formed (query_string req) = true ->
     serve (running s) req =
       (running s, mkResponse 307 (RedirectTo (location_of p req)))) /\
    (utf8_well_formed (query_string req) = false ->
     serve (running s) req = (running s, server_error)).
Proof.
  intros s req p n Hp Hpath.
  pose proof (slashed_path_unknown p n req Hp Hpath) as Hunk.
  rewrite (serve_unrouted (running s) req (unknown_path_none req Hunk)).
  assert (Hredirect : redirect_scope req = with_path p req).
  { unfold redirect_scope, with_path. rewrite Hpath.
    rewrite endswith_slash_slashes, rstrip_slash_slashes.
    unfold long_paths in Hp. cbn in Hp.
    repeat (destruct Hp as [<- | Hp]); try (destruct Hp); reflexivity. }
  assert (Hroot : String.eqb (url_path req) "/" = false).
  { destruct (String.eqb (url_path req) "/") eqn:E; [| reflexivity].
    apply String.eqb_eq in E. elim Hunk. left. left. exact E. }
  assert (Hsome : existsb (matches_somehow (redirect_scope req)) (routes (running s)) = true).
  { rewrite Hredirect. apply matches_somehow_spec. cbn [routes running].
    apply known_path_routes. unfold known_path, path_is, with_path. cbn [url_path].
    unfold long_paths in Hp. cbn in Hp.
    repeat (destruct Hp as [<- | Hp]); try (destruct Hp); auto 10. }
  rewrite Hroot, Hsome, Hredirect.
  split; intros ->; reflexivity.
Qed.

Lemma trailing_slash_redirect_witness :
  In "/health" long_paths /\
  serve app (mkRequest "GET" "/health//" "verbose=1" [("host", "example.org")] "") =
    (app,
     mkResponse 307
       (RedirectTo (mkURL (Some "example.org") "/health" (Some "verbose=1")))) /\
  serve app
    (mkRequest "GET" "/health/" (String (ascii_of_nat 255) EmptyString) [] "") =
    (app, mkResponse 500 (PlainText "Internal Server Error")).
Proof.
  assert (Hp : In "/health" long_paths) by (left; reflexivity).
  split; [exact Hp | split].
  - exact (proj1 (trailing_slash_redirect (state app)
                    (mkRequest "GET" "/health//" "verbose=1" [("host", "example.org")] "")
                    "/health" 1 Hp eq_refl) eq_refl).
  - exact (proj2 (trailing_slash_redirect (state app)
                    (mkRequest "GET" "/health/" (String (ascii_of_nat 255) EmptyString) [] "")
                    "/health" 0 Hp eq_refl) eq_refl).
Defined.

(** X3. A request for a path that is no route's, and that is still no
    route's once its trailing slashes are removed (or, if it has none, one
    is added), is answered with 404 and the body [{"detail": "Not Found"}],
    and leaves the application as it was. *)
Theorem unknown_path_is_404 :
  forall (s : AppState) (req : Request),
    ~ known_path req ->
    ~ known_path (redirect_scope req) ->
    serve (running s) req = (running s, not_found).
Proof.
  intros s req Hunk Hunk'.
  rewrite (serve_unrouted (running s) req (unknown_path_none req Hunk)).
  destruct (existsb (matches_somehow (redirect_scope req)) (routes (running s))) eqn:E.
  - apply matches_somehow_spec in E. cbn [routes running] in E.
    apply known_path_routes in E. contradiction.
  - rewrite andb_false_r. reflexivity.
Qed.

Lemma unknown_path_is_404_witness :
  ~ known_path (mkRequest "GET" "/healthz" "" [] "") /\
  serve app (mkRequest "GET" "/healthz" "" [] "") =
  (app, mkResponse 404 (JSONContent (JObj [("detail", JStr "Not Found")]))).
Proof.
  assert (H1 : ~ known_path (mkRequest "GET" "/healthz" "" [] "")).
  { unfold known_path, path_is. cbn. intuition discriminate. }
  assert (H2 : ~ known_path (redirect_scope (mkRequest "GET" "/healthz" "" [] ""))).
  { unfold known_path, path_is. cbn. intuition discriminate. }
  split; [exact H1 |].
  exact (unknown_path_is_404 (state app) (mkRequest "GET" "/healthz" "" [] "") H1 H2).
Defined.

(** X4. Routing is unambiguous: a request whose path is a route's matches
    that route and no other, and the router hands it to that route; no
    route of the application shadows another, and the route chosen is the
    same in whatever order the six routes stand in the routing table. *)
Theorem routing_unambiguous :
  forall (req : Request) (r : Route),
    In r (routes app) ->
    matches r req <> NONE ->
    (forall r', In r' (routes app) -> matches r' req <> NONE -> r' = r) /\
    route_loop (routes app) req None = Some r /\
    (forall rs : list Route,
        Permutation (routes app) rs -> route_loop rs req None = Some r).
Proof.
  intros req r Hin Hm.
  assert (Hpath : forall r0, matches r0 req <> NONE -> path_is (path r0) req).
  { intros r0 H0. destruct (path_regex_match (path r0) (url_path req)) eqn:E.
    - now apply path_regex_match_spec.
    - elim H0. unfold matches. now rewrite E. }
  assert (Huniq : forall r', In r' (routes app) -> matches r' req <> NONE -> r' = r).
  { intros r' Hin' Hm'.
    exact (one_route_per_path req r' r Hin' Hin (Hpath r' Hm') (Hpath r Hm)). }
  split; [exact Huniq | split].
  - exact (route_loop_unique req r (routes app) Huniq Hin Hm).
  - intros rs Hperm. apply route_loop_unique.
    + intros r' Hin' Hm'. apply Huniq; [| assumption].
      exact (Permutation_in r' (Permutation_sym Hperm) Hin').
    + exact (Permutation_in r Hperm Hin).
    + exact Hm.
Qed.

Lemma routing_unambiguous_witness :
  In health_route (routes app) /\
  matches health_route (mkRequest "POST" "/health" "" [] "") <> NONE /\
  route_loop (routes app) (mkRequest "POST" "/health" "" [] "") None = Some health_route /\
  route_loop (rev (routes app)) (mkRequest "POST" "/health" "" [] "") None
    = Some health_route.
Proof.
  assert (Hin : In health_route (routes app)).
  { rewrite routes_app. cbn. auto 10. }
  assert (Hm : matches health_route (mkRequest "POST" "/health" "" [] "") <> NONE).
  { cbn. discriminate. }
  split; [exact Hin | split; [exact Hm | split]].
  - exact (proj1 (proj2 (routing_unambiguous (mkRequest "POST" "/health" "" [] "")
                           health_route Hin Hm))).
  - exact (proj2 (proj2 (routing_unambiguous (mkRequest "POST" "/health" "" [] "")
                           health_route Hin Hm))
             (rev (routes app)) (Permutation_rev (routes app))).
Defined.

(** X5. The service is stateless towards its clients: in any session, from
    any state the application can be in, each response is the one that the
    freshly loaded application gives to that request alone, whatever was
    served before it. *)
Theorem session_responses_are_fresh :
  forall (a : FastAPI) (reqs : list Request),
    reachable a ->
    snd (serve_all a reqs) = map (fun req => snd (serve app req)) reqs.
Proof.
  intros a reqs. revert a.
  induction reqs as [| req rest IH]; intros a Hr; cbn [serve_all map].
  - reflexivity.
  - pose proof (fresh_response a req Hr) as Hresp.
    pose proof (IH (fst (serve a req)) (reachable_served a req Hr)) as Hrest.
    destruct (serve a req) as [a' resp]. cbn [fst snd] in Hresp, Hrest.
    destruct (serve_all a' rest) as [a'' resps]. cbn [snd] in Hrest |- *.
    now rewrite Hresp, Hrest.
Qed.

Lemma session_responses_are_fresh_witness :
  snd (serve_all (fst (serve app (mkRequest "GET" "/openapi.json" "" [] "")))
         [mkRequest "GET" "/openapi.json" "" [] "";
          mkRequest "GET" "/" "" [] "";
          mkRequest "PUT" "/health" "" [] ""]) =
  map (fun req => snd (serve app req))
    [mkRequest "GET" "/openapi.json" "" [] "";
     mkRequest "GET" "/" "" [] "";
     mkRequest "PUT" "/health" "" [] ""].
Proof.
  exact (session_responses_are_fresh
           (fst (serve app (mkRequest "GET" "/openapi.json" "" [] "")))
           [mkRequest "GET" "/openapi.json" "" [] "";
            mkRequest "GET" "/" "" [] "";
            mkRequest "PUT" "/health" "" [] ""]
           (reachable_served app (mkRequest "GET" "/openapi.json" "" [] "")
              reachable_loaded)).
Defined.

(** X7. The metadata given to the constructor is what the documentation
    routes show, at any time: [/openapi.json] answers with the schema
    document made of the title, description and version and of the two
    paths [/] and [/health], each for [GET]; [/docs] and [/redoc] answer
    with pages titled after the application and pointing at
    [/openapi.json]. *)
Theorem documentation_shows_metadata :
  forall (a : FastAPI) (req : Request),
    reachable a ->
    method req = "GET" \/ method req = "HEAD" ->
    (path_is "/openapi.json" req ->
     snd (serve a req) =
       mkResponse 200
         (SchemaContent
            (mkOpenAPI "CI/CD Demo API" "Complete CI/CD pipeline demonstration" "1.0.0"
               [("/", ["GET"]); ("/health", ["GET"])]))) /\
    (path_is "/docs" req ->
     snd (serve a req) =
       mkResponse 200
         (HTMLContent
            (SwaggerUI "/openapi.json" "CI/CD Demo API - Swagger UI"
               (Some "/docs/oauth2-redirect")))) /\
    (path_is "/redoc" req ->
     snd (serve a req) =
       mkResponse 200 (HTMLContent (ReDoc "/openapi.json" "CI/CD Demo API - ReDoc"))).
Proof.
  intros a req Hr Hmeth. rewrite (fresh_response a req Hr).
  assert (Hserve : forall r, In r (routes app) -> path_is (path r) req ->
             methods r = ["GET"; "HEAD"] ->
             snd (serve app req) =
               match snd (run_endpoint (routes app) r (state app)) with
               | Return resp => resp
               | Raise (HTTPException c d) => http_exception_handler c d
               | Raise (Exception _) => mkResponse 500 (PlainText "Internal Server Error")
               end).
  { intros r Hin Hp Hms.
    assert (Hm : matches r req = FULL).
    { apply matches_full_spec. split; [assumption |]. right. rewrite Hms.
      destruct Hmeth as [-> | ->]; cbn; auto. }
    assert (Hallow : allows r (method req) = true).
    { apply allows_spec. apply matches_full_spec in Hm. tauto. }
    now rewrite (serve_dispatched app req r (route_loop_picks req r Hin Hm) Hallow). }
  repeat split; intros Hp.
  - rewrite (Hserve (mkRoute "/openapi.json" ["GET"; "HEAD"] OpenAPIEndpoint None false));
      [reflexivity | rewrite routes_app; cbn; auto 10 | exact Hp | reflexivity].
  - rewrite (Hserve (mkRoute "/docs" ["GET"; "HEAD"] SwaggerUIHtml None false));
      [reflexivity | rewrite routes_app; cbn; auto 10 | exact Hp | reflexivity].
  - rewrite (Hserve (mkRoute "/redoc" ["GET"; "HEAD"] RedocHtml None false));
      [reflexivity | rewrite routes_app; cbn; auto 10 | exact Hp | reflexivity].
Qed.

Lemma documentation_shows_metadata_witness :
  snd (serve (fst (serve app (mkRequest "GET" "/openapi.json" "" [] "")))
         (mkRequest "GET" "/redoc" "" [] "")) =
  mkResponse 200 (HTMLContent (ReDoc "/openapi.json" "CI/CD Demo API - ReDoc")).
Proof.
  exact (proj2 (proj2 (documentation_shows_metadata
                         (fst (serve app (mkRequest "GET" "/openapi.json" "" [] "")))
                         (mkRequest "GET" "/redoc" "" [] "")
                         (reachable_served app (mkRequest "GET" "/openapi.json" "" [] "")
                            reachable_loaded)
                         (or_introl eq_refl)))
           (or_introl eq_refl)).
Defined.

(** X8. At any time every request gets status 200, 307, 404, 405 or 500.
    It gets 200 exactly when it is for one of the two handlers or for one
    of the documentation routes.  It gets 500 in one case only: its path
    is no route's but becomes one when its trailing slashes are toggled,
    so that a redirect is due, and its query string is not UTF-8. *)
Theorem server_error_only_on_bad_redirect :
  forall (a : FastAPI) (req : Request),
    reachable a ->
    (status (snd (serve a req)) = 200 \/
     status (snd (serve a req)) = 307 \/
     status (snd (serve a req)) = 404 \/
     status (snd (serve a req)) = 405 \/
     status (snd (serve a req)) = 500) /\
    (status (snd (serve a req)) = 200 <->
     for_handler req \/ for_documentation req) /\
    (status (snd (serve a req)) = 500 <->
     ~ known_path req /\
     known_path (redirect_scope req) /\
     utf8_well_formed (query_string req) = false).
Proof.
  intros a req Hr. rewrite (fresh_response a req Hr).
  assert (Hfull_known :
            (exists r, In r (routes app) /\ matches r req = FULL) -> known_path req).
  { intros [r [Hin Hm]]. apply known_path_routes. exists r.
    split; [assumption | congruence]. }
  destruct (existsb (matches_somehow req) (routes app)) eqn:Ek.
  - apply matches_somehow_spec in Ek. pose proof Ek as Hk.
    apply known_path_routes in Hk.
    destruct (full_match_dec req (routes app)) as [Hfull | Hnone].
    + pose proof Hfull as [r [Hin Hm]].
      destruct (serve_matched req r None Hin Hm (or_introl eq_refl)) as [_ [H200 _]].
      rewrite H200. repeat split; auto; try discriminate.
      * intros _. now apply full_match_requests.
      * intros [Hunk _]. contradiction.
    + rewrite (serve_partial app req Hnone Ek). cbn.
      repeat split; auto 10; try discriminate.
      * intros H. apply full_match_requests in H as [r [Hin Hm]].
        elim (Hnone r Hin Hm).
      * intros [Hunk _]. contradiction.
  - assert (Hunk : ~ known_path req).
    { intros Hk. apply known_path_routes, matches_somehow_spec in Hk. congruence. }
    assert (Hno : ~ (for_handler req \/ for_documentation req)).
    { intros H. apply full_match_requests in H. auto. }
    assert (Hroot : String.eqb (url_path req) "/" = false).
    { destruct (String.eqb (url_path req) "/") eqn:E; [| reflexivity].
      apply String.eqb_eq in E. elim Hunk. left. left. exact E. }
    rewrite (serve_unrouted app req (unknown_path_none req Hunk)). rewrite Hroot.
    change (redirect_slashes app) with true. cbn [andb negb snd].
    destruct (existsb (matches_somehow (redirect_scope req)) (routes app)) eqn:Er.
    + apply matches_somehow_spec, known_path_routes in Er.
      destruct (utf8_well_formed (query_string req)); cbn;
        repeat split; auto 10; try discriminate; try tauto.
      intros [_ [_ H]]. discriminate H.
    + assert (Hunk' : ~ known_path (redirect_scope req)).
      { intros Hk. apply known_path_routes, matches_somehow_spec in Hk. congruence. }
      cbn. repeat split; auto 10; try discriminate; try tauto.
Qed.

Lemma server_error_only_on_bad_redirect_witness :
  status (snd (serve (fst (serve app (mkRequest "GET" "/openapi.json" "" [] "")))
                 (mkRequest "GET" "/docs/" (String (ascii_of_nat 192) EmptyString)
                    [] ""))) = 500.
Proof.
  refine (proj2 (proj2 (proj2 (server_error_only_on_bad_redirect
                         (fst (serve app (mkRequest "GET" "/openapi.json" "" [] "")))
                         (mkRequest "GET" "/docs/" (String (ascii_of_nat 192) EmptyString)
                            [] "")
                         (reachable_served app (mkRequest "GET" "/openapi.json" "" [] "")
                            reachable_loaded)))) _).
  split; [| split].
  - unfold known_path, path_is. cbn. intuition discriminate.
  - right. right. right. left. left. reflexivity.
  - reflexivity.
Defined.
